(** * StockAgent tool server ([server.py]): classifier and portfolio lookup

    A shallow embedding of the four functions of [server.py]:
    [_load_json], [get_portfolio_by_key], [is_portfolio_question] and
    [get_portfolio], together with the part of the Python runtime they touch.
    The classifier is given twice: as the function of the question text it
    computes, and operation by operation on an arbitrary argument.

    - Python [str] values are sequences of Unicode code points ([list N]).
    - Values produced by the JSON decoder, and the dict returned by the
      classifier, are [pyval]s; a Python [dict] with string keys is a
      [gmap str pyval].
    - Exceptions are the [Raise] branch of [result]; the I/O performed by the
      loader is recorded as a list of [event]s.
    - Library functions that are not part of the repository ([str.lower],
      the text codecs, [json.loads]) are parameters of the development. *)

From Stdlib Require Import ZArith NArith List String Ascii Bool Lia.
From Stdlib.Strings Require Import Byte.
From stdpp Require Import base option countable gmap.
Import ListNotations.

Local Open Scope N_scope.

(** ** Python strings *)

Module Str.

(** A Python [str]: its code points in order. *)
Definition str : Type := list N.

Definition is_cont (b : N) : bool := (128 <=? b) && (b <? 192).

Definition is_surrogate (c : N) : bool := (55296 <=? c) && (c <=? 57343).

(** Strict UTF-8 decoding (no overlong forms, no surrogates, nothing above
    U+10FFFF), used to read the string literals of the source file and as the
    codec of the example environment. *)
Fixpoint utf8_decode (bs : list N) : option str :=
  match bs with
  | [] => Some []
  | b0 :: t0 =>
    if b0 <? 128 then cons b0 <$> utf8_decode t0
    else if (194 <=? b0) && (b0 <? 224) then
      match t0 with
      | b1 :: t1 =>
        if is_cont b1
        then cons ((b0 - 192) * 64 + (b1 - 128)) <$> utf8_decode t1
        else None
      | _ => None
      end
    else if (224 <=? b0) && (b0 <? 240) then
      match t0 with
      | b1 :: b2 :: t2 =>
        let c := (b0 - 224) * 4096 + (b1 - 128) * 64 + (b2 - 128) in
        if is_cont b1 && is_cont b2 && (2048 <=? c) && negb (is_surrogate c)
        then cons c <$> utf8_decode t2
        else None
      | _ => None
      end
    else if (240 <=? b0) && (b0 <? 245) then
      match t0 with
      | b1 :: b2 :: b3 :: t3 =>
        let c := (b0 - 240) * 262144 + (b1 - 128) * 4096
                 + (b2 - 128) * 64 + (b3 - 128) in
        if is_cont b1 && is_cont b2 && is_cont b3
           && (65536 <=? c) && (c <=? 1114111)
        then cons c <$> utf8_decode t3
        else None
      | _ => None
      end
    else None
  end.

Definition bytes_of (s : string) : list N :=
  List.map Byte.to_N (list_byte_of_string s).

(** [u "..."] is the Python string written by that literal in a UTF-8
    source file. *)
Definition u (s : string) : str :=
  match utf8_decode (bytes_of s) with
  | Some cs => cs
  | None => []
  end.

(** [s.startswith(prefix)] *)
Fixpoint startswith (s prefix : str) : bool :=
  match prefix, s with
  | [], _ => true
  | _ :: _, [] => false
  | p :: prefix', c :: s' => (c =? p) && startswith s' prefix'
  end.

(** [sub in s]: some slice of [s] equals [sub]. *)
Fixpoint contains (s sub : str) : bool :=
  startswith s sub ||
  match s with
  | [] => false
  | _ :: s' => contains s' sub
  end.

(** [sub] occurs in [s] as a contiguous run of code points. *)
Definition Substring (sub s : str) : Prop :=
  exists pre post, s = pre ++ sub ++ post.

(** A lower-casing function that agrees with [str.lower] on text made of
    ASCII and Hangul code points; it instantiates the [lower] parameter in
    the examples. *)
Definition ascii_lower (s : str) : str :=
  List.map (fun c => if (65 <=? c) && (c <=? 90) then c + 32 else c) s.

End Str.

Import Str.

(** ** Python values *)

#[warnings="-register-all"]
Inductive pyval : Type :=
  | PNone
  | PBool (b : bool)
  | PInt (z : Z)
  | PFloat (bits : N)               (* an IEEE-754 binary64 pattern *)
  | PStr (s : str)
  | PList (l : list pyval)
  | PDict (d : gmap str pyval).

(** [d[k]] for a value that is a dict, [None] when it is not one or has no
    such key. *)
Definition field (v : pyval) (k : str) : option pyval :=
  match v with
  | PDict d => d !! k
  | _ => None
  end.

(** The key set of a dict value. *)
Definition keys (v : pyval) : gset str :=
  match v with
  | PDict d => dom d
  | _ => ∅
  end.

(** ** The classifier: [is_portfolio_question] *)

Module Classifier.

Definition portfolio_keywords : list str :=
  [ u "포트폴리오"; u "내 주식"; u "내 투자"; u "보유 주식"; u "투자 현황";
    u "내 계좌"; u "내 자산"; u "투자 성과"; u "수익률"; u "보유 종목" ].

Definition reason_related : str := u "포트폴리오 관련 키워드가 포함되어 있습니다.".
Definition reason_unrelated : str := u "포트폴리오 관련 키워드가 없습니다.".

Definition k_is_portfolio_related : str := u "is_portfolio_related".
Definition k_reason : str := u "reason".
Definition k_detected_keywords : str := u "detected_keywords".

Section WithLower.

(** [str.lower] of the Python runtime. *)
Variable lower : str -> str.

Definition is_portfolio_question (question : str) : pyval :=
  let question_lower := lower question in
  let is_related :=
    existsb (fun keyword => contains question_lower keyword) portfolio_keywords in
  let reason := if is_related then reason_related else reason_unrelated in
  PDict
    (<[ k_is_portfolio_related := PBool is_related ]>
     (<[ k_reason := PStr reason ]>
      (<[ k_detected_keywords :=
            PList (List.map PStr
                     (List.filter (fun kw => contains question_lower kw)
                                  portfolio_keywords)) ]> ∅))).

(** The two values the body computes from the lowered question (lines 50
    and 57 of the source), named so that statements can refer to them. *)
Definition related_flag (question : str) : bool :=
  existsb (fun keyword => contains (lower question) keyword) portfolio_keywords.

Definition detected (question : str) : list str :=
  List.filter (fun kw => contains (lower question) kw) portfolio_keywords.

End WithLower.

End Classifier.

(** ** Exceptions, results and recorded I/O *)

Inductive exn : Type :=
  | HTTPStatusError (status_code : Z)   (* httpx: response outside 2xx *)
  | RequestError                        (* httpx: no response obtained *)
  | FileNotFoundError
  | OSError                             (* any other failure of open/read *)
  | UnicodeDecodeError
  | JSONDecodeError
  | KeyError (msg : str)
  | TypeError
  | InvalidURL                          (* httpx: the URL does not parse *)
  | ValueError                          (* a name that cannot be handed to the
                                           OS or put on the wire: embedded NUL,
                                           UnicodeEncodeError *)
  | RecursionError                      (* json: nesting beyond the limit *)
  | AttributeError.

Inductive result (A : Type) : Type :=
  | Ok (a : A)
  | Raise (e : exn).
Arguments Ok {A} a.
Arguments Raise {A} e.

(** The calls the program makes to the outside, recorded whether or not the
    call gets as far as the network or the disk. *)
Inductive event : Type :=
  | HttpGet (url : str) (timeout : Z)   (* timeout in seconds *)
  | OpenRead (path : str).

(** A computation: the I/O it performed, and its value or the exception that
    ended it. *)
Definition io (A : Type) : Type := (list event * result A)%type.

Definition ret {A} (a : A) : io A := ([], Ok a).
Definition raise {A} (e : exn) : io A := ([], Raise e).
Definition lift {A} (r : result A) : io A := ([], r).

Definition bind {A B} (m : io A) (k : A -> io B) : io B :=
  match m with
  | (t, Ok a) => let '(t', r) := k a in (t ++ t', r)
  | (t, Raise e) => (t, Raise e)
  end.

Notation "x <- m ;; k" := (bind m (fun x => k))
  (at level 100, m at next level, right associativity).

Definition trace {A} (m : io A) : list event := fst m.
Definition outcome {A} (m : io A) : result A := snd m.

(** ** The world outside the process *)

(** What a path names: no file ([Absent], which is also the case of every
    path that cannot name a file at all), a file or directory that cannot be
    opened or read ([Unreadable]), or a file with its bytes. *)
Inductive file_state : Type :=
  | Absent
  | Unreadable
  | Contents (data : list byte).

Record response : Type := { status_code : Z; content : list byte }.

(** What [client.get] does with a URL: it refuses a URL that does not parse
    ([UrlRejected], httpx.InvalidURL) or that has a code point it cannot
    encode ([UrlUnencodable], UnicodeEncodeError) before sending anything, it
    fails to obtain a response ([NoResponse], the httpx.RequestError family),
    or it returns a response. *)
Inductive http_outcome : Type :=
  | NoResponse
  | Responded (resp : response)
  | UrlRejected
  | UrlUnencodable.

Record World : Type := {
  environ : gmap str str;                 (* os.environ *)
  files : str -> file_state;              (* the file system *)
  network : str -> Z -> http_outcome      (* url, timeout: what a GET yields *)
}.

(** Library functions the loader relies on: the text codec of
    [open(..., encoding="utf-8")], the one [Response.json] applies to a body,
    and [json.loads] on text. [json_loads] is [None] when [json.loads] raises;
    [loads_overflows] tells whether it then raises RecursionError (nesting
    beyond the interpreter's limit) instead of JSONDecodeError. *)
Record Codec : Type := {
  decode_utf8 : list byte -> option str;
  decode_body : list byte -> option str;
  json_loads : str -> option pyval;
  loads_overflows : str -> bool
}.

(** ** The loader and the lookup *)

Module Server.

Definition default_access_key_var : str := u "DEFAULT_ACCESS_KEY".
Definition fallback_access_key : str := u "user123".
Definition default_source_by_key : str := u "aa.json".
Definition default_source : str := u "https://jsonbin.io/689589fcf7e7a370d1f70914".
Definition key_error_prefix : str := u "존재하지 않는 access_key: ".
Definition http_timeout : Z := 20%Z.

(** [Response.is_success] *)
Definition is_success (r : response) : bool :=
  ((200 <=? status_code r) && (status_code r <=? 299))%Z.

(** [Response.raise_for_status] *)
Definition raise_for_status (r : response) : io unit :=
  if is_success r then ret tt else raise (HTTPStatusError (status_code r)).

(** [client.get(url)] on a client built with [timeout]. *)
Definition client_get (w : World) (timeout : Z) (url : str) : io response :=
  ([HttpGet url timeout],
   match network w url timeout with
   | NoResponse => Raise RequestError
   | Responded r => Ok r
   | UrlRejected => Raise InvalidURL
   | UrlUnencodable => Raise ValueError
   end).

(** A code point that can occur in a file name handed to the OS (POSIX,
    UTF-8 file-system encoding with the surrogateescape handler): not NUL,
    and no surrogate other than U+DC80..U+DCFF. *)
Definition fs_encodable (c : N) : bool :=
  negb (c =? 0) &&
  (negb (is_surrogate c) || ((56448 <=? c) && (c <=? 56575))).

(** The paths [open] accepts; any other path raises ValueError (embedded
    null byte) or its subclass UnicodeEncodeError, and names no file. *)
Definition path_ok (path : str) : bool := forallb fs_encodable path.

(** [open(path, "r", encoding="utf-8")] followed by reading the whole file;
    the bytes read are decoded by the caller. *)
Definition open_read (w : World) (path : str) : io (list byte) :=
  ([OpenRead path],
   match files w path with
   | Absent => if path_ok path then Raise FileNotFoundError else Raise ValueError
   | Unreadable => Raise OSError
   | Contents data => Ok data
   end).

(** [os.getenv(name, default)] *)
Definition getenv (w : World) (name default : str) : str :=
  match environ w !! name with
  | Some v => v
  | None => default
  end.

(** [not access_key] for a [str | None]. *)
Definition py_not (access_key : option str) : bool :=
  match access_key with
  | None => true
  | Some [] => true
  | Some (_ :: _) => false
  end.

Definition str_eqb (a b : str) : bool := bool_decide (a = b).

(** [key in data] for a string [key]. *)
Definition py_in (key : str) (data : pyval) : result bool :=
  match data with
  | PDict d => Ok (bool_decide (is_Some (d !! key)))
  | PList l =>
    Ok (existsb (fun v => match v with PStr s => str_eqb s key | _ => false end) l)
  | PStr s => Ok (contains s key)
  | PNone | PBool _ | PInt _ | PFloat _ => Raise TypeError
  end.

(** [data[key]] for a string [key]. *)
Definition py_getitem (data : pyval) (key : str) : result pyval :=
  match data with
  | PDict d =>
    match d !! key with
    | Some v => Ok v
    | None => Raise (KeyError key)
    end
  | _ => Raise TypeError
  end.

Section WithCodec.

Variable codec : Codec.

Definition loads (text : str) : io pyval :=
  match json_loads codec text with
  | Some v => ret v
  | None =>
    raise (if loads_overflows codec text then RecursionError else JSONDecodeError)
  end.

(** [resp.json()] *)
Definition response_json (r : response) : io pyval :=
  match decode_body codec (content r) with
  | Some text => loads text
  | None => raise UnicodeDecodeError
  end.

(** [json.load(f)] on the bytes of the opened file. *)
Definition json_load (data : list byte) : io pyval :=
  match decode_utf8 codec data with
  | Some text => loads text
  | None => raise UnicodeDecodeError
  end.

Definition is_url (source : str) : bool :=
  startswith source (u "http://") || startswith source (u "https://").

Definition _load_json (w : World) (source : str) : io pyval :=
  if is_url source then
    resp <- client_get w http_timeout source ;;
    _ <- raise_for_status resp ;;
    response_json resp
  else
    data <- open_read w source ;;
    json_load data.

Definition get_portfolio_by_key
    (w : World) (access_key : str) (source : option str) : io pyval :=
  let source := default default_source_by_key source in
  data <- _load_json w source ;;
  present <- lift (py_in access_key data) ;;
  if negb present
  then raise (KeyError (key_error_prefix ++ access_key))
  else lift (py_getitem data access_key).

(** The key [get_portfolio] hands to [get_portfolio_by_key]. *)
Definition lookup_key (w : World) (access_key : option str) : str :=
  if py_not access_key
  then getenv w default_access_key_var fallback_access_key
  else default [] access_key.

Definition get_portfolio
    (w : World) (access_key : option str) (source : option str) : io pyval :=
  let source := default default_source source in
  let access_key := lookup_key w access_key in
  get_portfolio_by_key w access_key (Some source).

End WithCodec.

End Server.

(** ** The classifier, operation by operation

    The body of [is_portfolio_question] as the interpreter runs it on an
    argument that need not be a string (the annotation is not enforced):
    every operation is one that can raise. *)

Module Dynamic.
Import Classifier.

(** [v.lower()]: a method of [str]; no other value here has the attribute. *)
Definition py_lower (lower : str -> str) (v : pyval) : result pyval :=
  match v with
  | PStr s => Ok (PStr (lower s))
  | _ => Raise AttributeError
  end.

(** [any(test(x) for x in l)]: stops at the first true test or the first
    exception. *)
Fixpoint py_any (test : str -> result bool) (l : list str) : result bool :=
  match l with
  | [] => Ok false
  | x :: l' =>
    match test x with
    | Raise e => Raise e
    | Ok true => Ok true
    | Ok false => py_any test l'
    end
  end.

(** [[x for x in l if test(x)]]: stops at the first exception. *)
Fixpoint py_select (test : str -> result bool) (l : list str)
  : result (list str) :=
  match l with
  | [] => Ok []
  | x :: l' =>
    match test x with
    | Raise e => Raise e
    | Ok keep =>
      match py_select test l' with
      | Raise e => Raise e
      | Ok rest => Ok (if keep then x :: rest else rest)
      end
    end
  end.

Section WithLower.

Variable lower : str -> str.

Definition is_portfolio_question (question : pyval) : io pyval :=
  question_lower <- lift (py_lower lower question) ;;
  is_related <-
    lift (py_any (fun keyword => Server.py_in keyword question_lower)
                 portfolio_keywords) ;;
  let reason := if is_related then reason_related else reason_unrelated in
  detected_keywords <-
    lift (py_select (fun kw => Server.py_in kw question_lower)
                    portfolio_keywords) ;;
  ret (PDict
         (<[ k_is_portfolio_related := PBool is_related ]>
          (<[ k_reason := PStr reason ]>
           (<[ k_detected_keywords := PList (List.map PStr detected_keywords) ]>
            ∅)))).

End WithLower.

End Dynamic.

(** [serves codec w source text]: retrieving [source] in world [w] succeeds
    and yields the document [text]. *)
Definition serves (codec : Codec) (w : World) (source text : str) : Prop :=
  (Server.is_url source = true /\
   exists r, network w source Server.http_timeout = Responded r /\
             Server.is_success r = true /\
             decode_body codec (content r) = Some text)
  \/
  (Server.is_url source = false /\
   exists data, files w source = Contents data /\
                decode_utf8 codec data = Some text).

(** ** An example environment

    A few documents, reachable as local files and over HTTP, and a decoder
    that knows exactly these documents. The codec agrees with the Python
    runtime on the bytes used here: UTF-8 without a byte order mark, NUL or
    carriage return. *)

Module Sample.

(** Bytes of a literal in which [']  stands for the double quote. *)
Definition json_lit (s : string) : list byte :=
  List.map (fun b => if Byte.eqb b x27 then x22 else b) (list_byte_of_string s).

Definition text_of (data : list byte) : option str :=
  utf8_decode (List.map Byte.to_N data).

Definition doc_users : list byte :=
  json_lit "{'u1': {'x': 1}, 'user123': {'AAPL': 10}}".
Definition doc_blank : list byte := json_lit "{'': 7}".
Definition doc_broken : list byte := json_lit "{'u1': ".
Definition doc_array : list byte := json_lit "['u1']".
(** [{"name": "caf\xe9"}]: the text in Latin-1, which is not UTF-8. *)
Definition doc_latin1 : list byte :=
  json_lit "{'name': 'caf" ++ [xe9] ++ json_lit "'}".

Definition val_users : gmap str pyval :=
  <[ u "u1" := PDict (<[ u "x" := PInt 1 ]> ∅) ]>
  (<[ u "user123" := PDict (<[ u "AAPL" := PInt 10 ]> ∅) ]> ∅).
Definition val_blank : gmap str pyval := <[ [] := PInt 7 ]> ∅.

Definition loads (text : str) : option pyval :=
  if Server.str_eqb text (default [] (text_of doc_users)) then Some (PDict val_users)
  else if Server.str_eqb text (default [] (text_of doc_blank)) then Some (PDict val_blank)
  else if Server.str_eqb text (default [] (text_of doc_array)) then Some (PList [PStr (u "u1")])
  else None.

Definition codec : Codec :=
  {| decode_utf8 := text_of; decode_body := text_of; json_loads := loads;
     loads_overflows := fun _ => false |}.

Definition disk (path : str) : file_state :=
  if Server.str_eqb path (u "aa.json") then Contents doc_users
  else if Server.str_eqb path (u "blank.json") then Contents doc_blank
  else if Server.str_eqb path (u "broken.json") then Contents doc_broken
  else if Server.str_eqb path (u "array.json") then Contents doc_array
  else if Server.str_eqb path (u "latin1.json") then Contents doc_latin1
  else Absent.

Definition web (url : str) (timeout : Z) : http_outcome :=
  if existsb (fun c => (c <? 32) || (c =? 127)) url then UrlRejected
  else if Server.str_eqb url (u "https://example.test/users")
  then Responded {| status_code := 200; content := doc_users |}
  else if Server.str_eqb url (u "https://example.test/gone")
  then Responded {| status_code := 404; content := list_byte_of_string "Not Found" |}
  else if Server.str_eqb url (u "http://example.test/moved")
  then Responded {| status_code := 301; content := [] |}
  else if Server.str_eqb url (u "https://example.test/broken")
  then Responded {| status_code := 200; content := doc_broken |}
  else NoResponse.

(** No [DEFAULT_ACCESS_KEY] in the environment. *)
Definition world : World :=
  {| environ := ∅; files := disk; network := web |}.

(** [DEFAULT_ACCESS_KEY=u1] *)
Definition world_u1 : World :=
  {| environ := <[ Server.default_access_key_var := u "u1" ]> ∅;
     files := disk; network := web |}.

(** [DEFAULT_ACCESS_KEY=] (set, and empty) *)
Definition world_blank : World :=
  {| environ := <[ Server.default_access_key_var := [] ]> ∅;
     files := disk; network := web |}.

End Sample.

(** * Properties *)

Example keyword_code_points :
  Classifier.portfolio_keywords =
  [ [54252; 53944; 54260; 47532; 50724]; [45236; 32; 51452; 49885];
    [45236; 32; 53804; 51088]; [48372; 50976; 32; 51452; 49885];
    [53804; 51088; 32; 54788; 54889]; [45236; 32; 44228; 51340];
    [45236; 32; 51088; 49328]; [53804; 51088; 32; 49457; 44284];
    [49688; 51061; 47456]; [48372; 50976; 32; 51333; 47785] ].
Proof. vm_compute. reflexivity. Qed.

Example classify_sample :
  field (Classifier.is_portfolio_question ascii_lower (u "내 주식 수익률 알려줘"))
        Classifier.k_detected_keywords
  = Some (PList [PStr (u "내 주식"); PStr (u "수익률")]).
Proof. vm_compute. reflexivity. Qed.

Example lookup_u1 :
  Server.get_portfolio_by_key Sample.codec Sample.world (u "u1") None
  = ([OpenRead (u "aa.json")], Ok (PDict (<[ u "x" := PInt 1 ]> ∅))).
Proof. vm_compute. reflexivity. Qed.

Example lookup_missing :
  Server.get_portfolio_by_key Sample.codec Sample.world (u "missing") None
  = ([OpenRead (u "aa.json")],
     Raise (KeyError (Server.key_error_prefix ++ u "missing"))).
Proof. vm_compute. reflexivity. Qed.

Example lookup_no_file :
  outcome (Server.get_portfolio_by_key Sample.codec Sample.world (u "u1")
             (Some (u "nowhere.json")))
  = Raise FileNotFoundError.
Proof. vm_compute. reflexivity. Qed.

Example lookup_404 :
  Server.get_portfolio_by_key Sample.codec Sample.world (u "u1")
    (Some (u "https://example.test/gone"))
  = ([HttpGet (u "https://example.test/gone") 20], Raise (HTTPStatusError 404)).
Proof. vm_compute. reflexivity. Qed.

Example lookup_in_array :
  outcome (Server.get_portfolio_by_key Sample.codec Sample.world (u "u1")
             (Some (u "array.json")))
  = Raise TypeError.
Proof. vm_compute. reflexivity. Qed.

(** ** Substring search *)

Module StrFacts.

Lemma startswith_spec (s p : str) :
  startswith s p = true <-> exists post, s = p ++ post.
Proof.
  revert s. induction p as [|c p IH]; intros s.
  - split; [intros _; exists s; reflexivity | intros _; destruct s; reflexivity].
  - destruct s as [|d s]; simpl.
    + split; [discriminate | intros [post H]; discriminate].
    + rewrite andb_true_iff, N.eqb_eq, IH. split.
      * intros [-> [post ->]]. exists post. reflexivity.
      * intros [post H]. injection H as -> ->. split; [reflexivity | eauto].
Qed.

Lemma contains_spec (s sub : str) :
  contains s sub = true <-> Substring sub s.
Proof.
  unfold Substring. induction s as [|c s IH].
  - cbn [contains]. rewrite orb_false_r, startswith_spec. split.
    + intros [post H]. exists [], post. exact H.
    + intros [pre [post H]]. destruct pre; [exists post; exact H | discriminate].
  - cbn [contains]. rewrite orb_true_iff, startswith_spec, IH. split.
    + intros [[post H] | [pre [post H]]].
      * exists [], post. exact H.
      * exists (c :: pre), post. rewrite H. reflexivity.
    + intros [pre [post H]]. destruct pre as [|d pre].
      * left. exists post. exact H.
      * right. injection H as _ H. exists pre, post. exact H.
Qed.

Lemma contains_false (s sub : str) :
  contains s sub = false <-> ~ Substring sub s.
Proof.
  rewrite <- contains_spec. destruct (contains s sub); split; congruence.
Qed.

End StrFacts.

(** ** The classifier *)

Module ClassifierFacts.
Import Classifier StrFacts.

Lemma keys_distinct :
  k_is_portfolio_related <> k_reason /\
  k_is_portfolio_related <> k_detected_keywords /\
  k_reason <> k_detected_keywords.
Proof. repeat split; intros H; vm_compute in H; discriminate. Qed.

Lemma keywords_NoDup : NoDup portfolio_keywords.
Proof. apply (bool_decide_unpack _). vm_compute. reflexivity. Qed.

(** A subsequence of a duplicate-free list is determined by its members. *)
Lemma sublist_unique {A} (base l1 l2 : list A) :
  NoDup base -> sublist l1 base -> sublist l2 base ->
  (forall x, In x l1 <-> In x l2) -> l1 = l2.
Proof.
  intros Hnd. revert l1 l2.
  induction Hnd as [|x base Hx Hnd IH]; intros l1 l2 H1 H2 Hmem.
  - apply sublist_nil_r in H1, H2. congruence.
  - assert (Hin : forall l, sublist l base -> ~ In x l).
    { intros l Hl Hxl. apply Hx. apply list_elem_of_In in Hxl.
      eapply elem_of_sublist; eauto. }
    apply sublist_cons_r in H1, H2.
    destruct H1 as [H1 | (l1' & -> & H1)], H2 as [H2 | (l2' & -> & H2)].
    + apply IH; assumption.
    + exfalso. apply (Hin l1 H1). apply Hmem. left. reflexivity.
    + exfalso. apply (Hin l2 H2). apply Hmem. left. reflexivity.
    + f_equal. apply IH; try assumption.
      intros y. split; intros Hy.
      * destruct (proj1 (Hmem y) (or_intror Hy)) as [<- | ?]; [|assumption].
        exfalso. exact (Hin l1' H1 Hy).
      * destruct (proj2 (Hmem y) (or_intror Hy)) as [<- | ?]; [|assumption].
        exfalso. exact (Hin l2' H2 Hy).
Qed.

Lemma filter_sublist {A} (f : A -> bool) (l : list A) :
  sublist (List.filter f l) l.
Proof.
  induction l as [|x l IH]; simpl.
  - constructor.
  - destruct (f x); [apply sublist_skip | apply sublist_cons]; exact IH.
Qed.

Section WithLower.

Variable lower : str -> str.


Lemma field_is_portfolio_related (q : str) :
  field (is_portfolio_question lower q) k_is_portfolio_related
  = Some (PBool (related_flag lower q)).
Proof. unfold is_portfolio_question, field. apply lookup_insert_eq. Qed.

Lemma field_reason (q : str) :
  field (is_portfolio_question lower q) k_reason
  = Some (PStr (if related_flag lower q then reason_related else reason_unrelated)).
Proof.
  destruct keys_distinct as (H1 & _ & _).
  unfold is_portfolio_question, field.
  rewrite lookup_insert_ne by exact H1. apply lookup_insert_eq.
Qed.

Lemma field_detected_keywords (q : str) :
  field (is_portfolio_question lower q) k_detected_keywords
  = Some (PList (List.map PStr (detected lower q))).
Proof.
  destruct keys_distinct as (_ & H2 & H3).
  unfold is_portfolio_question, field.
  rewrite lookup_insert_ne by exact H2.
  rewrite lookup_insert_ne by exact H3. apply lookup_insert_eq.
Qed.

Lemma is_related_spec (q : str) :
  related_flag lower q = true <->
  exists kw, In kw portfolio_keywords /\ Substring kw (lower q).
Proof.
  unfold related_flag. rewrite existsb_exists.
  split; intros (kw & Hin & H); exists kw; split; try assumption;
    apply contains_spec; exact H.
Qed.

Lemma detected_spec (q kw : str) :
  In kw (detected lower q) <-> In kw portfolio_keywords /\ Substring kw (lower q).
Proof. unfold detected. rewrite filter_In, contains_spec. reflexivity. Qed.

Lemma detected_nonempty (q : str) :
  detected lower q <> [] <-> related_flag lower q = true.
Proof.
  rewrite is_related_spec. split.
  - intros H. destruct (detected lower q) as [|kw l] eqn:E; [congruence|].
    exists kw. apply detected_spec. rewrite E. left. reflexivity.
  - intros (kw & Hkw) E. apply detected_spec in Hkw. rewrite E in Hkw.
    destruct Hkw.
Qed.

(** C1: the [is_portfolio_related] flag is true exactly when some keyword of
    the fixed list is a substring of the lower-cased question, and the
    [detected_keywords] sequence is non-empty exactly when the flag is true
    (empty exactly when it is false). *)
Theorem related_iff_keyword_found (q : str) :
  exists (b : bool) (kws : list str),
    field (is_portfolio_question lower q) k_is_portfolio_related
      = Some (PBool b) /\
    field (is_portfolio_question lower q) k_detected_keywords
      = Some (PList (List.map PStr kws)) /\
    (b = true <->
     exists kw, In kw portfolio_keywords /\ Substring kw (lower q)) /\
    (kws <> [] <-> b = true) /\
    (kws = [] <-> b = false).
Proof.
  exists (related_flag lower q), (detected lower q).
  split; [apply field_is_portfolio_related|].
  split; [apply field_detected_keywords|].
  split; [apply is_related_spec|].
  split; [apply detected_nonempty|].
  pose proof (detected_nonempty q) as H.
  destruct (related_flag lower q), (detected lower q) as [|kw l]; split; intros E;
    try reflexivity; try discriminate.
  - exfalso. apply (proj2 H); [reflexivity | exact E].
  - exfalso. assert (false = true) by (apply H; discriminate). discriminate.
Qed.

(** C5: the [detected_keywords] sequence holds exactly the keywords of the
    fixed list that occur in the lower-cased question, in the relative order
    of the fixed list; these two conditions determine the sequence. *)
Theorem detected_keywords_exact_in_order (q : str) :
  exists kws : list str,
    field (is_portfolio_question lower q) k_detected_keywords
      = Some (PList (List.map PStr kws)) /\
    (forall kw, In kw kws <->
                In kw portfolio_keywords /\ Substring kw (lower q)) /\
    sublist kws portfolio_keywords /\
    (forall l : list str,
        sublist l portfolio_keywords ->
        (forall kw, In kw l <->
                    In kw portfolio_keywords /\ Substring kw (lower q)) ->
        l = kws).
Proof.
  exists (detected lower q).
  split; [apply field_detected_keywords|].
  split; [intros kw; apply detected_spec|].
  split; [apply filter_sublist|].
  intros l Hsub Hmem.
  apply (sublist_unique portfolio_keywords); auto using keywords_NoDup.
  - apply filter_sublist.
  - intros kw. rewrite Hmem. symmetry. apply detected_spec.
Qed.

(** C6 (amended): the returned dict has exactly the three keys
    [is_portfolio_related], [reason] and [detected_keywords], holding a
    boolean, a string and a list of strings. *)
Theorem classify_result_shape (q : str) :
  exists (b : bool) (r : str) (kws : list str),
    keys (is_portfolio_question lower q)
      = {[ k_is_portfolio_related; k_reason; k_detected_keywords ]} /\
    size (keys (is_portfolio_question lower q)) = 3%nat /\
    field (is_portfolio_question lower q) k_is_portfolio_related
      = Some (PBool b) /\
    field (is_portfolio_question lower q) k_reason = Some (PStr r) /\
    field (is_portfolio_question lower q) k_detected_keywords
      = Some (PList (List.map PStr kws)).
Proof.
  exists (related_flag lower q),
         (if related_flag lower q then reason_related else reason_unrelated),
         (detected lower q).
  assert (Hk : keys (is_portfolio_question lower q)
               = {[ k_is_portfolio_related; k_reason; k_detected_keywords ]}).
  { unfold is_portfolio_question, keys.
    rewrite !dom_insert_L, dom_empty_L. set_solver. }
  split; [exact Hk|].
  split.
  { unfold is_portfolio_question, keys. vm_compute. reflexivity. }
  split; [apply field_is_portfolio_related|].
  split; [apply field_reason | apply field_detected_keywords].
Qed.

(** C8: [reason] is one of two fixed, different strings, and which one is
    decided by the [is_portfolio_related] flag alone. *)
Theorem reason_selected_by_flag (q : str) :
  exists b : bool,
    field (is_portfolio_question lower q) k_is_portfolio_related
      = Some (PBool b) /\
    field (is_portfolio_question lower q) k_reason
      = Some (PStr (if b then reason_related else reason_unrelated)) /\
    reason_related <> reason_unrelated.
Proof.
  exists (related_flag lower q).
  split; [apply field_is_portfolio_related|].
  split; [apply field_reason|].
  intros H. vm_compute in H. discriminate.
Qed.

End WithLower.

(** C6 (as stated, refuted): for the question "내 주식" the returned dict has
    no key [is_related] and no key [matched_keywords]; its key set is not the
    one the claim names. *)
Lemma classify_fields_not_spec_names :
  field (is_portfolio_question ascii_lower (u "내 주식")) (u "is_related") = None /\
  field (is_portfolio_question ascii_lower (u "내 주식")) (u "matched_keywords")
    = None /\
  keys (is_portfolio_question ascii_lower (u "내 주식"))
    <> {[ u "is_related"; u "reason"; u "matched_keywords" ]}.
Proof.
  split; [vm_compute; reflexivity|].
  split; [vm_compute; reflexivity|].
  intros H.
  assert (Hin : u "is_related"
                ∈ keys (is_portfolio_question ascii_lower (u "내 주식"))).
  { rewrite H. set_solver. }
  unfold keys, is_portfolio_question in Hin.
  apply elem_of_dom in Hin. destruct Hin as [v Hv].
  vm_compute in Hv. discriminate.
Qed.

End ClassifierFacts.

(** ** The classifier, operation by operation *)

Module DynamicFacts.
Import Classifier.

(** On a string every membership test returns, so [any] and the
    comprehension run over the whole keyword list without an exception. *)
Lemma py_any_on_string (s : str) (l : list str) :
  Dynamic.py_any (fun keyword => Server.py_in keyword (PStr s)) l
  = Ok (existsb (fun keyword => contains s keyword) l).
Proof.
  induction l as [|kw l IH]; [reflexivity|].
  cbn [Dynamic.py_any existsb].
  change (Server.py_in kw (PStr s)) with (Ok (contains s kw)).
  destruct (contains s kw); [reflexivity | exact IH].
Qed.

Lemma py_select_on_string (s : str) (l : list str) :
  Dynamic.py_select (fun kw => Server.py_in kw (PStr s)) l
  = Ok (List.filter (fun kw => contains s kw) l).
Proof.
  induction l as [|kw l IH]; [reflexivity|].
  cbn [Dynamic.py_select List.filter]. rewrite IH.
  change (Server.py_in kw (PStr s)) with (Ok (contains s kw)).
  destruct (contains s kw); reflexivity.
Qed.

(** The run of the body on a string, step by step. *)
Lemma run_on_string (lower : str -> str) (x : str) :
  Dynamic.is_portfolio_question lower (PStr x)
  = ([], Ok (Classifier.is_portfolio_question lower x)).
Proof.
  unfold Dynamic.is_portfolio_question, Dynamic.py_lower.
  unfold lift at 1. cbn [bind].
  rewrite py_any_on_string, py_select_on_string. reflexivity.
Qed.

(** C9: on every question string the body of the classifier runs to its end:
    the call to [lower], each of the membership tests of [any] and of the
    comprehension return without raising, no I/O is performed, and the value
    returned is the dict determined by the question text and the keyword
    list; two questions with the same lower-cased text get identical
    results. *)
Theorem classify_total_and_pure (lower : str -> str) (q : str) :
  Dynamic.is_portfolio_question lower (PStr q)
  = ([], Ok (Classifier.is_portfolio_question lower q)) /\
  (forall q', lower q' = lower q ->
     Dynamic.is_portfolio_question lower (PStr q')
     = Dynamic.is_portfolio_question lower (PStr q)).
Proof.
  split; [apply run_on_string|].
  intros q' H. rewrite !run_on_string.
  unfold Classifier.is_portfolio_question. rewrite H. reflexivity.
Qed.


Lemma classify_total_and_pure_witness :
  Dynamic.is_portfolio_question ascii_lower (PStr (u "My 수익률 NOW"))
  = Dynamic.is_portfolio_question ascii_lower (PStr (u "my 수익률 now")).
Proof.
  apply (classify_total_and_pure ascii_lower (u "my 수익률 now")).
  vm_compute. reflexivity.
Defined.


End DynamicFacts.

(** ** The loader *)

Module LoaderFacts.
Import Server StrFacts.

Section WithCodec.

Variable codec : Codec.



Lemma loads_outcome (text : str) :
  loads codec text =
  ([], match json_loads codec text with
       | Some v => Ok v
       | None =>
         Raise (if loads_overflows codec text
                then RecursionError else JSONDecodeError)
       end).
Proof. unfold loads. destruct (json_loads codec text); reflexivity. Qed.

(** What the URL branch does, stage by stage. *)
Lemma load_json_url (w : World) (source : str) :
  is_url source = true ->
  _load_json codec w source =
  ([HttpGet source http_timeout],
   match network w source http_timeout with
   | NoResponse => Raise RequestError
   | Responded r =>
     if is_success r then
       match decode_body codec (content r) with
       | None => Raise UnicodeDecodeError
       | Some text =>
         match json_loads codec text with
         | Some v => Ok v
         | None =>
           Raise (if loads_overflows codec text
                  then RecursionError else JSONDecodeError)
         end
       end
     else Raise (HTTPStatusError (status_code r))
   | UrlRejected => Raise InvalidURL
   | UrlUnencodable => Raise ValueError
   end).
Proof.
  intros Hurl. unfold _load_json, client_get, raise_for_status, response_json.
  rewrite Hurl. cbn [bind].
  destruct (network w source http_timeout) as [|r| |]; try reflexivity.
  destruct (is_success r); [|reflexivity]. cbn [ret bind].
  destruct (decode_body codec (content r)) as [text|]; [|reflexivity].
  rewrite loads_outcome. reflexivity.
Qed.

(** What the file branch does, stage by stage. *)
Lemma load_json_file (w : World) (source : str) :
  is_url source = false ->
  _load_json codec w source =
  ([OpenRead source],
   match files w source with
   | Absent =>
     if path_ok source then Raise FileNotFoundError else Raise ValueError
   | Unreadable => Raise OSError
   | Contents data =>
     match decode_utf8 codec data with
     | None => Raise UnicodeDecodeError
     | Some text =>
       match json_loads codec text with
       | Some v => Ok v
       | None =>
         Raise (if loads_overflows codec text
                then RecursionError else JSONDecodeError)
       end
     end
   end).
Proof.
  intros Hurl. unfold _load_json, open_read, json_load.
  rewrite Hurl. cbn [bind].
  destruct (files w source) as [| |data]; try reflexivity;
    [destruct (path_ok source); reflexivity|].
  destruct (decode_utf8 codec data) as [text|]; [|reflexivity].
  rewrite loads_outcome. reflexivity.
Qed.

Lemma load_json_serves (w : World) (source text : str) :
  serves codec w source text ->
  _load_json codec w source =
  ([if is_url source then HttpGet source http_timeout else OpenRead source],
   match json_loads codec text with
   | Some v => Ok v
   | None =>
     Raise (if loads_overflows codec text
            then RecursionError else JSONDecodeError)
   end).
Proof.
  intros [(Hurl & r & Hnet & Hok & Hdec) | (Hurl & data & Hfile & Hdec)].
  - rewrite load_json_url by exact Hurl. rewrite Hurl, Hnet, Hok, Hdec.
    reflexivity.
  - rewrite load_json_file by exact Hurl. rewrite Hurl, Hfile, Hdec.
    reflexivity.
Qed.

(** The lookup on a loaded dict. *)
Lemma lookup_in_dict (w : World) (key source : str) (t : list event)
    (d : gmap str pyval) :
  _load_json codec w source = (t, Ok (PDict d)) ->
  get_portfolio_by_key codec w key (Some source) =
  (t, match d !! key with
      | Some v => Ok v
      | None => Raise (KeyError (key_error_prefix ++ key))
      end).
Proof.
  intros Hload. unfold get_portfolio_by_key. cbn [from_option id].
  rewrite Hload. unfold lift, raise, py_in, py_getitem. cbn [bind].
  destruct (d !! key) as [v|] eqn:E.
  - rewrite bool_decide_eq_true_2 by eauto. cbn [negb].
    rewrite !app_nil_r. reflexivity.
  - rewrite bool_decide_eq_false_2 by (intros [v Hv]; discriminate).
    cbn [negb]. rewrite !app_nil_r. reflexivity.
Qed.


(** C2: when the loaded document is an object without the access key, the
    lookup raises [KeyError] with a message that ends in the key; when the key
    is present, the lookup returns the value stored under it. *)
Theorem lookup_by_key_contract
    (w : World) (key : str) (source : option str) (d : gmap str pyval) :
  outcome (_load_json codec w (default (u "aa.json") source)) = Ok (PDict d) ->
  (d !! key = None ->
   outcome (get_portfolio_by_key codec w key source)
   = Raise (KeyError (u "존재하지 않는 access_key: " ++ key)) /\
   Substring key (u "존재하지 않는 access_key: " ++ key)) /\
  (forall v, d !! key = Some v ->
             outcome (get_portfolio_by_key codec w key source) = Ok v).
Proof.
  intros Hload.
  change (get_portfolio_by_key codec w key source)
    with (get_portfolio_by_key codec w key
            (Some (default default_source_by_key source))).
  change (u "aa.json") with default_source_by_key in Hload.
  destruct (_load_json codec w (default default_source_by_key source))
    as [t r] eqn:E.
  unfold outcome in Hload. cbn [snd] in Hload. subst r.
  rewrite (lookup_in_dict w key _ t d E). unfold outcome. cbn [snd].
  split.
  - intros ->. split; [reflexivity|].
    exists (u "존재하지 않는 access_key: "), []. rewrite app_nil_r. reflexivity.
  - intros v ->. reflexivity.
Qed.

(** C3: if retrieving [source] yields a document that parses to an object,
    then looking up any of its top-level keys returns the value the object
    holds under that key. *)
Theorem load_then_lookup_round_trip
    (w : World) (source text : str) (d : gmap str pyval) :
  serves codec w source text ->
  json_loads codec text = Some (PDict d) ->
  forall key, key ∈ dom d ->
    exists v, d !! key = Some v /\
              outcome (get_portfolio_by_key codec w key (Some source)) = Ok v.
Proof.
  intros Hserves Hparse key Hkey.
  apply elem_of_dom in Hkey. destruct Hkey as [v Hv]. exists v.
  split; [exact Hv|].
  pose proof (load_json_serves w source text Hserves) as Hload.
  rewrite Hparse in Hload.
  rewrite (lookup_in_dict w key source _ d Hload), Hv. reflexivity.
Qed.

(** C7 (amended): with no access key supplied the lookup uses the value of
    [DEFAULT_ACCESS_KEY] when the variable is set and "user123" otherwise; a
    supplied non-empty access key is used as given. *)
Theorem get_portfolio_key_choice (w : World) (source : option str) :
  (forall v, environ w !! u "DEFAULT_ACCESS_KEY" = Some v ->
     get_portfolio codec w None source
     = get_portfolio_by_key codec w v (Some (default default_source source))) /\
  (environ w !! u "DEFAULT_ACCESS_KEY" = None ->
     get_portfolio codec w None source
     = get_portfolio_by_key codec w (u "user123")
         (Some (default default_source source))) /\
  (forall k, k <> [] ->
     get_portfolio codec w (Some k) source
     = get_portfolio_by_key codec w k (Some (default default_source source))).
Proof.
  unfold get_portfolio, lookup_key, getenv.
  change default_access_key_var with (u "DEFAULT_ACCESS_KEY").
  change fallback_access_key with (u "user123").
  repeat split.
  - intros v Hv. cbn [py_not]. rewrite Hv. reflexivity.
  - intros Hv. cbn [py_not]. rewrite Hv. reflexivity.
  - intros [|c k] Hk; [congruence | reflexivity].
Qed.

(** C10 (amended): an empty access key is treated as an absent one: the
    lookup uses the value of [DEFAULT_ACCESS_KEY] when set and "user123"
    otherwise, so it uses the empty string only when [DEFAULT_ACCESS_KEY] is
    itself set to the empty string. *)
Theorem empty_key_treated_as_absent (w : World) (source : option str) :
  get_portfolio codec w (Some []) source = get_portfolio codec w None source /\
  get_portfolio codec w (Some []) source
  = get_portfolio_by_key codec w
      (match environ w !! u "DEFAULT_ACCESS_KEY" with
       | Some v => v
       | None => u "user123"
       end)
      (Some (default default_source source)) /\
  (lookup_key w (Some []) = [] <->
   environ w !! u "DEFAULT_ACCESS_KEY" = Some []).
Proof.
  split; [reflexivity|]. split; [reflexivity|].
  unfold lookup_key, getenv. cbn [py_not].
  change default_access_key_var with (u "DEFAULT_ACCESS_KEY").
  destruct (environ w !! u "DEFAULT_ACCESS_KEY") as [v|].
  - split; [intros ->; reflexivity | intros [= ->]; reflexivity].
  - split; intros H; [vm_compute in H|]; discriminate.
Qed.

End WithCodec.

(** *** The claims on the example environment *)



Lemma lookup_by_key_contract_witness :
  outcome (get_portfolio_by_key Sample.codec Sample.world (u "missing") None)
    = Raise (KeyError (u "존재하지 않는 access_key: " ++ u "missing")) /\
  outcome (get_portfolio_by_key Sample.codec Sample.world (u "u1") None)
    = Ok (PDict (<[ u "x" := PInt 1 ]> ∅)).
Proof.
  assert (Hload :
    outcome (_load_json Sample.codec Sample.world (default (u "aa.json") None))
    = Ok (PDict Sample.val_users)) by (vm_compute; reflexivity).
  split.
  - destruct (lookup_by_key_contract Sample.codec Sample.world (u "missing")
                None Sample.val_users Hload) as (Hmiss & _).
    apply Hmiss. vm_compute. reflexivity.
  - destruct (lookup_by_key_contract Sample.codec Sample.world (u "u1")
                None Sample.val_users Hload) as (_ & Hhit).
    apply Hhit. vm_compute. reflexivity.
Defined.

Lemma load_then_lookup_round_trip_witness :
  exists v,
    Sample.val_users !! u "user123" = Some v /\
    outcome (get_portfolio_by_key Sample.codec Sample.world (u "user123")
               (Some (u "https://example.test/users"))) = Ok v.
Proof.
  apply (load_then_lookup_round_trip Sample.codec Sample.world
           (u "https://example.test/users")
           (default [] (Sample.text_of Sample.doc_users))).
  - left. split; [vm_compute; reflexivity|].
    exists {| status_code := 200; content := Sample.doc_users |}.
    repeat split; vm_compute; reflexivity.
  - vm_compute. reflexivity.
  - apply (elem_of_dom_2 _ _ (PDict (<[ u "AAPL" := PInt 10 ]> ∅))).
    vm_compute. reflexivity.
Defined.

Lemma get_portfolio_key_choice_witness :
  get_portfolio Sample.codec Sample.world_u1 None (Some (u "aa.json"))
    = get_portfolio_by_key Sample.codec Sample.world_u1 (u "u1")
        (Some (u "aa.json")) /\
  get_portfolio Sample.codec Sample.world None (Some (u "aa.json"))
    = get_portfolio_by_key Sample.codec Sample.world (u "user123")
        (Some (u "aa.json")) /\
  get_portfolio Sample.codec Sample.world (Some (u "u1")) (Some (u "aa.json"))
    = get_portfolio_by_key Sample.codec Sample.world (u "u1")
        (Some (u "aa.json")).
Proof.
  split; [|split].
  - apply (get_portfolio_key_choice Sample.codec Sample.world_u1
             (Some (u "aa.json"))).
    vm_compute. reflexivity.
  - apply (get_portfolio_key_choice Sample.codec Sample.world
             (Some (u "aa.json"))).
    vm_compute. reflexivity.
  - apply (get_portfolio_key_choice Sample.codec Sample.world
             (Some (u "aa.json"))).
    intros H. vm_compute in H. discriminate.
Defined.

(** C7 (as stated, refuted): a caller who supplies the empty string does not
    get a lookup of the empty string: with [DEFAULT_ACCESS_KEY] unset the
    record of "user123" is returned, where looking up the empty string
    raises [KeyError]. *)
Lemma supplied_empty_key_not_used_as_given :
  lookup_key Sample.world (Some []) = u "user123" /\
  outcome (get_portfolio Sample.codec Sample.world (Some []) (Some (u "aa.json")))
    = Ok (PDict (<[ u "AAPL" := PInt 10 ]> ∅)) /\
  outcome (get_portfolio_by_key Sample.codec Sample.world [] (Some (u "aa.json")))
    = Raise (KeyError (u "존재하지 않는 access_key: ")) /\
  get_portfolio Sample.codec Sample.world (Some []) (Some (u "aa.json"))
    <> get_portfolio_by_key Sample.codec Sample.world [] (Some (u "aa.json")).
Proof.
  repeat split; try (vm_compute; reflexivity).
  intros H. vm_compute in H. discriminate.
Qed.

(** C10 (as stated, refuted): with [DEFAULT_ACCESS_KEY] set to the empty
    string, a call with an empty access key does perform the lookup with the
    empty string, and returns the record stored under it. *)
Lemma empty_key_lookup_when_env_empty :
  environ Sample.world_blank !! u "DEFAULT_ACCESS_KEY" = Some [] /\
  lookup_key Sample.world_blank (Some []) = [] /\
  get_portfolio Sample.codec Sample.world_blank (Some []) (Some (u "blank.json"))
    = get_portfolio_by_key Sample.codec Sample.world_blank []
        (Some (u "blank.json")) /\
  outcome (get_portfolio Sample.codec Sample.world_blank (Some [])
             (Some (u "blank.json")))
    = Ok (PInt 7).
Proof. repeat split; vm_compute; reflexivity. Qed.

End LoaderFacts.

(** ** Further behaviour of the classifier *)

Module ClassifierBehaviour.
Import Classifier StrFacts ClassifierFacts.

Lemma Substring_length (sub s : str) :
  Substring sub s -> (length sub <= length s)%nat.
Proof. intros (pre & post & ->). rewrite !length_app. lia. Qed.

Lemma Substring_trans (a b c : str) :
  Substring a b -> Substring b c -> Substring a c.
Proof.
  intros (p1 & q1 & ->) (p2 & q2 & ->).
  exists (p2 ++ p1), (q1 ++ q2). rewrite <- !app_assoc. reflexivity.
Qed.

Lemma keywords_min_length :
  Forall (fun kw : str => (3 <= length kw)%nat) portfolio_keywords.
Proof. vm_compute. repeat constructor. Qed.

Lemma nothing_matches {A} (f : A -> bool) (l : list A) :
  (forall x, In x l -> f x = false) ->
  existsb f l = false /\ List.filter f l = [].
Proof.
  induction l as [|x l IH]; intros H; [split; reflexivity|].
  cbn [existsb List.filter]. rewrite (H x) by (left; reflexivity).
  apply IH. intros y Hy. apply H. right. exact Hy.
Qed.

Lemma filter_sublist_mono {A} (f g : A -> bool) (l : list A) :
  (forall x, In x l -> f x = true -> g x = true) ->
  sublist (List.filter f l) (List.filter g l).
Proof.
  induction l as [|x l IH]; intros H; cbn [List.filter]; [constructor|].
  assert (IH' : sublist (List.filter f l) (List.filter g l)).
  { apply IH. intros y Hy. apply H. right. exact Hy. }
  destruct (f x) eqn:Ef.
  - rewrite (H x) by (auto; left; reflexivity). apply sublist_skip. exact IH'.
  - destruct (g x); [apply sublist_cons|]; exact IH'.
Qed.

Lemma sublist_full_length {A} (l1 l2 : list A) :
  sublist l1 l2 -> length l1 = length l2 -> l1 = l2.
Proof.
  induction 1 as [|x l1 l2 Hsub IH|x l1 l2 Hsub IH]; cbn [length]; intros Hlen.
  - reflexivity.
  - f_equal. apply IH. lia.
  - apply sublist_length in Hsub. lia.
Qed.

Section WithLower.

Variable lower : str -> str.

(** A question whose lower-cased text has fewer than three code points (the
    empty question among them) is answered with the flag false, the
    "no keyword" reason and an empty keyword list: no keyword is that short. *)
Theorem short_question_unrelated (q : str) :
  (length (lower q) < 3)%nat ->
  is_portfolio_question lower q
  = PDict (<[ k_is_portfolio_related := PBool false ]>
           (<[ k_reason := PStr reason_unrelated ]>
            (<[ k_detected_keywords := PList [] ]> ∅))).
Proof.
  intros Hlen.
  destruct (nothing_matches (fun kw => contains (lower q) kw) portfolio_keywords)
    as [He Hf].
  { intros kw Hkw. apply contains_false. intros Hsub.
    apply Substring_length in Hsub.
    pose proof (proj1 (List.Forall_forall _ _) keywords_min_length kw Hkw).
    cbv beta in *. lia. }
  unfold is_portfolio_question. rewrite He, Hf. reflexivity.
Qed.

(** Detection is monotone in the text: when the lower-cased text of one
    question occurs inside that of another, every keyword detected in the
    first is detected in the second, in the same order, and a related first
    question makes the second related. *)
Theorem detection_monotone (q1 q2 : str) :
  Substring (lower q1) (lower q2) ->
  sublist (detected lower q1) (detected lower q2) /\
  (related_flag lower q1 = true -> related_flag lower q2 = true) /\
  field (is_portfolio_question lower q1) k_detected_keywords
    = Some (PList (List.map PStr (detected lower q1))) /\
  field (is_portfolio_question lower q2) k_detected_keywords
    = Some (PList (List.map PStr (detected lower q2))) /\
  field (is_portfolio_question lower q1) k_is_portfolio_related
    = Some (PBool (related_flag lower q1)) /\
  field (is_portfolio_question lower q2) k_is_portfolio_related
    = Some (PBool (related_flag lower q2)).
Proof.
  intros Hsub.
  assert (Hmono : forall kw, contains (lower q1) kw = true ->
                             contains (lower q2) kw = true).
  { intros kw H. apply contains_spec. apply contains_spec in H.
    eapply Substring_trans; eassumption. }
  split; [apply filter_sublist_mono; intros kw _; apply Hmono|].
  split.
  - rewrite !is_related_spec. intros (kw & Hin & H). exists kw.
    split; [exact Hin|]. eapply Substring_trans; eassumption.
  - repeat split; auto using field_detected_keywords, field_is_portfolio_related.
Qed.

(** The reported keyword list never repeats a keyword and never has more
    than ten entries; with ten entries it is the whole keyword list. *)
Theorem detected_keywords_bounded (q : str) :
  exists kws : list str,
    field (is_portfolio_question lower q) k_detected_keywords
      = Some (PList (List.map PStr kws)) /\
    NoDup kws /\
    (length kws <= 10)%nat /\
    (length kws = 10%nat -> kws = portfolio_keywords).
Proof.
  exists (detected lower q).
  pose proof (filter_sublist (fun kw => contains (lower q) kw)
                portfolio_keywords) as Hsub.
  fold (detected lower q) in Hsub.
  split; [apply field_detected_keywords|].
  split; [eapply sublist_NoDup; [apply keywords_NoDup | exact Hsub]|].
  split; [apply sublist_length in Hsub; exact Hsub|].
  intros Hlen. apply sublist_full_length; [exact Hsub | exact Hlen].
Qed.

(** No keyword contains another: a question whose lower-cased text is
    exactly one keyword is related and reports that keyword alone. *)
Theorem single_keyword_detected (q kw : str) :
  In kw portfolio_keywords ->
  lower q = kw ->
  is_portfolio_question lower q
  = PDict (<[ k_is_portfolio_related := PBool true ]>
           (<[ k_reason := PStr reason_related ]>
            (<[ k_detected_keywords := PList [PStr kw] ]> ∅))).
Proof.
  intros Hin Hq. unfold is_portfolio_question. rewrite Hq.
  unfold portfolio_keywords in Hin. cbn [In] in Hin.
  repeat (destruct Hin as [<- | Hin]; [vm_compute; reflexivity|]).
  destruct Hin.
Qed.

End WithLower.

Lemma short_question_unrelated_witness :
  is_portfolio_question ascii_lower []
  = PDict (<[ k_is_portfolio_related := PBool false ]>
           (<[ k_reason := PStr reason_unrelated ]>
            (<[ k_detected_keywords := PList [] ]> ∅))).
Proof.
  apply (short_question_unrelated ascii_lower []). vm_compute. lia.
Defined.

Lemma detection_monotone_witness :
  sublist (detected ascii_lower (u "수익률"))
          (detected ascii_lower (u "내 주식 수익률 알려줘")).
Proof.
  apply (detection_monotone ascii_lower (u "수익률") (u "내 주식 수익률 알려줘")).
  exists (u "내 주식 "), (u " 알려줘"). vm_compute. reflexivity.
Defined.

Lemma single_keyword_detected_witness :
  is_portfolio_question ascii_lower (u "보유 주식")
  = PDict (<[ k_is_portfolio_related := PBool true ]>
           (<[ k_reason := PStr reason_related ]>
            (<[ k_detected_keywords := PList [PStr (u "보유 주식")] ]> ∅))).
Proof.
  apply (single_keyword_detected ascii_lower (u "보유 주식") (u "보유 주식")).
  - vm_compute. tauto.
  - vm_compute. reflexivity.
Defined.

End ClassifierBehaviour.

(** ** Further behaviour of the loader and the lookup *)

Module LookupBehaviour.
Import Server StrFacts LoaderFacts.

Lemma in_list_spec (key : str) (l : list pyval) :
  existsb (fun v => match v with PStr s => str_eqb s key | _ => false end) l
  = true <-> In (PStr key) l.
Proof.
  rewrite existsb_exists. split.
  - intros (v & Hin & Hv). destruct v; try discriminate.
    unfold str_eqb in Hv. apply bool_decide_eq_true in Hv. subst. exact Hin.
  - intros Hin. exists (PStr key). split; [exact Hin|].
    unfold str_eqb. apply bool_decide_eq_true. reflexivity.
Qed.

Section WithCodec.

Variable codec : Codec.

(** The lookup is the load followed by lines 25-27 on the loaded value. *)
Lemma lookup_after_load (w : World) (key source : str)
    (t : list event) (r : result pyval) :
  _load_json codec w source = (t, r) ->
  get_portfolio_by_key codec w key (Some source) =
  (t, match r with
      | Raise e => Raise e
      | Ok data =>
        match py_in key data with
        | Raise e => Raise e
        | Ok present =>
          if negb present
          then Raise (KeyError (key_error_prefix ++ key))
          else py_getitem data key
        end
      end).
Proof.
  intros Hload. unfold get_portfolio_by_key. cbn [from_option id].
  rewrite Hload. destruct r as [data|e]; [|reflexivity].
  cbv [bind lift raise].
  destruct (py_in key data) as [[|]|e]; cbv [negb]; rewrite ?app_nil_r;
    reflexivity.
Qed.

Lemma load_pair (w : World) (source : str) :
  _load_json codec w source
  = (trace (_load_json codec w source), outcome (_load_json codec w source)).
Proof. destruct (_load_json codec w source). reflexivity. Qed.

(** The loader raises neither [KeyError] nor [TypeError]. *)
Lemma load_error_kind (w : World) (source : str) (e : exn) :
  outcome (_load_json codec w source) = Raise e ->
  match e with
  | KeyError _ | TypeError | AttributeError => False
  | _ => True
  end.
Proof.
  intros H. destruct (is_url source) eqn:Hurl.
  - rewrite load_json_url in H by exact Hurl. unfold outcome in H.
    cbn [snd] in H.
    destruct (network w source http_timeout) as [|r| |];
      try (injection H as <-; exact I).
    destruct (is_success r); [|injection H as <-; exact I].
    destruct (decode_body codec (content r)) as [text|];
      [|injection H as <-; exact I].
    destruct (json_loads codec text); [discriminate|].
    destruct (loads_overflows codec text); injection H as <-; exact I.
  - rewrite load_json_file in H by exact Hurl. unfold outcome in H.
    cbn [snd] in H.
    destruct (files w source) as [| |data]; try (injection H as <-; exact I).
    + destruct (path_ok source); injection H as <-; exact I.
    + destruct (decode_utf8 codec data) as [text|];
        [|injection H as <-; exact I].
      destruct (json_loads codec text); [discriminate|].
      destruct (loads_overflows codec text); injection H as <-; exact I.
Qed.

(** The load succeeds exactly when the source can be retrieved as text that
    [json.loads] accepts, and then returns the decoded value. *)
Theorem load_succeeds_iff (w : World) (source : str) (v : pyval) :
  outcome (_load_json codec w source) = Ok v <->
  exists text, serves codec w source text /\ json_loads codec text = Some v.
Proof.
  split.
  - intros H. destruct (is_url source) eqn:Hurl.
    + rewrite load_json_url in H by exact Hurl. unfold outcome in H.
      cbn [snd] in H.
      destruct (network w source http_timeout) as [|r| |] eqn:Hnet;
        try discriminate.
      destruct (is_success r) eqn:Hok; [|discriminate].
      destruct (decode_body codec (content r)) as [text|] eqn:Hdec;
        [|discriminate].
      destruct (json_loads codec text) as [v'|] eqn:Hj; [|discriminate].
      injection H as <-. exists text. split; [|exact Hj].
      left. split; [exact Hurl|]. exists r. auto.
    + rewrite load_json_file in H by exact Hurl. unfold outcome in H.
      cbn [snd] in H.
      destruct (files w source) as [| |data] eqn:Hfile; try discriminate.
      { destruct (path_ok source); discriminate. }
      destruct (decode_utf8 codec data) as [text|] eqn:Hdec; [|discriminate].
      destruct (json_loads codec text) as [v'|] eqn:Hj; [|discriminate].
      injection H as <-. exists text. split; [|exact Hj].
      right. split; [exact Hurl|]. exists data. auto.
  - intros (text & Hserves & Hj).
    rewrite (load_json_serves codec w source text Hserves), Hj. reflexivity.
Qed.


(** A failed load is the whole call: the lookup and [get_portfolio] end with
    the same exception after the same I/O, whatever the access key. *)
Theorem load_failure_passes_through
    (w : World) (key : str) (access_key : option str) (source : str) (e : exn) :
  outcome (_load_json codec w source) = Raise e ->
  get_portfolio_by_key codec w key (Some source) = _load_json codec w source /\
  get_portfolio codec w access_key (Some source) = _load_json codec w source.
Proof.
  intros H. pose proof (load_pair w source) as Hp. rewrite H in Hp.
  split.
  - rewrite (lookup_after_load w key source _ _ Hp). symmetry. exact Hp.
  - unfold get_portfolio. cbn [from_option id].
    rewrite (lookup_after_load w _ source _ _ Hp). symmetry. exact Hp.
Qed.

(** The lookup performs no I/O of its own: each call of
    [get_portfolio_by_key] or [get_portfolio] performs exactly the one
    retrieval of its load, whether it succeeds or fails. *)
Theorem lookup_io_is_one_load
    (w : World) (key : str) (access_key source : option str) :
  trace (get_portfolio_by_key codec w key source)
  = trace (_load_json codec w (default (u "aa.json") source)) /\
  trace (get_portfolio codec w access_key source)
  = trace (_load_json codec w (default default_source source)) /\
  length (trace (get_portfolio_by_key codec w key source)) = 1%nat /\
  length (trace (get_portfolio codec w access_key source)) = 1%nat.
Proof.
  assert (Hone : forall s, length (trace (_load_json codec w s)) = 1%nat).
  { intros s. destruct (is_url s) eqn:Hurl;
      [rewrite load_json_url by exact Hurl | rewrite load_json_file by exact Hurl];
      reflexivity. }
  assert (Hk : forall k s,
             trace (get_portfolio_by_key codec w k (Some s))
             = trace (_load_json codec w s)).
  { intros k s. rewrite (lookup_after_load w k s _ _ (load_pair w s)).
    reflexivity. }
  change (get_portfolio_by_key codec w key source)
    with (get_portfolio_by_key codec w key
            (Some (default default_source_by_key source))).
  change (get_portfolio codec w access_key source)
    with (get_portfolio_by_key codec w (lookup_key w access_key)
            (Some (default default_source source))).
  change (u "aa.json") with default_source_by_key.
  rewrite !Hk, !Hone. repeat split.
Qed.

(** The lookup returns a value only when the loaded document is a dict that
    holds the access key, and then it is the value stored under that key. *)
Theorem lookup_succeeds_iff (w : World) (key source : str) (v : pyval) :
  outcome (get_portfolio_by_key codec w key (Some source)) = Ok v <->
  exists d, outcome (_load_json codec w source) = Ok (PDict d) /\
            d !! key = Some v.
Proof.
  rewrite (lookup_after_load w key source _ _ (load_pair w source)).
  unfold outcome at 1. cbn [snd]. split.
  - intros H.
    destruct (outcome (_load_json codec w source)) as [data|e]; [|discriminate].
    destruct data as [| | | | s | l | d]; cbn [py_in py_getitem] in H;
      try discriminate.
    + destruct (contains s key); discriminate.
    + destruct (existsb _ l); discriminate.
    + exists d. split; [reflexivity|].
      destruct (d !! key) as [v'|] eqn:E.
      * rewrite bool_decide_eq_true_2 in H by eauto. cbn [negb] in H.
        congruence.
      * rewrite bool_decide_eq_false_2 in H by (intros [? ?]; discriminate).
        discriminate.
  - intros (d & Hload & Hv). rewrite Hload. cbn [py_in py_getitem].
    rewrite Hv, bool_decide_eq_true_2 by eauto. reflexivity.
Qed.

(** A loaded document that is not a dict never yields a value: a list or a
    string raises [TypeError] when it contains the key (as an element, as a
    substring) and the missing-key [KeyError] when it does not; null, a
    boolean or a number raises [TypeError]. *)
Theorem lookup_in_non_dict (w : World) (key source : str) (data : pyval) :
  outcome (_load_json codec w source) = Ok data ->
  (forall l, data = PList l ->
     (In (PStr key) l ->
      outcome (get_portfolio_by_key codec w key (Some source))
      = Raise TypeError) /\
     (~ In (PStr key) l ->
      outcome (get_portfolio_by_key codec w key (Some source))
      = Raise (KeyError (key_error_prefix ++ key)))) /\
  (forall s, data = PStr s ->
     (Substring key s ->
      outcome (get_portfolio_by_key codec w key (Some source))
      = Raise TypeError) /\
     (~ Substring key s ->
      outcome (get_portfolio_by_key codec w key (Some source))
      = Raise (KeyError (key_error_prefix ++ key)))) /\
  (data = PNone \/ (exists b, data = PBool b) \/
   (exists z, data = PInt z) \/ (exists bits, data = PFloat bits) ->
   outcome (get_portfolio_by_key codec w key (Some source)) = Raise TypeError).
Proof.
  intros Hload.
  rewrite (lookup_after_load w key source _ _ (load_pair w source)), Hload.
  unfold outcome. cbn [snd]. split; [|split].
  - intros l ->. cbn [py_in py_getitem]. split; intros Hin.
    + apply in_list_spec in Hin. rewrite Hin. reflexivity.
    + destruct (existsb _ l) eqn:E; [|reflexivity].
      apply in_list_spec in E. contradiction.
  - intros s ->. cbn [py_in py_getitem]. split; intros Hsub.
    + apply contains_spec in Hsub. rewrite Hsub. reflexivity.
    + apply contains_false in Hsub. rewrite Hsub. reflexivity.
  - intros [-> | [[b ->] | [[z ->] | [bits ->]]]]; reflexivity.
Qed.

(** A [KeyError] of the lookup always carries the prefixed message with the
    key looked up, and is raised only after a successful load of a document
    that does not contain the key: indexing itself never fails on a key. *)
Theorem key_error_cause (w : World) (key source msg : str) :
  outcome (get_portfolio_by_key codec w key (Some source)) = Raise (KeyError msg) ->
  msg = key_error_prefix ++ key /\
  exists data, outcome (_load_json codec w source) = Ok data /\
               py_in key data = Ok false.
Proof.
  rewrite (lookup_after_load w key source _ _ (load_pair w source)).
  unfold outcome at 1. cbn [snd]. intros H.
  destruct (outcome (_load_json codec w source)) as [data|e] eqn:Hload.
  - destruct (py_in key data) as [[|]|e] eqn:Hin; cbn [negb] in H.
    + exfalso. destruct data; cbn [py_in py_getitem] in *; try discriminate.
      injection Hin as Hin. apply bool_decide_eq_true in Hin.
      destruct Hin as [v Hv]. rewrite Hv in H. discriminate.
    + injection H as <-. split; [reflexivity|]. exists data. auto.
    + exfalso. destruct data; cbn [py_in] in Hin; try discriminate;
        injection Hin as <-; discriminate.
  - injection H as ->. apply load_error_kind in Hload. destruct Hload.
Qed.

(** End to end: when the source serves a document that parses to a dict,
    [get_portfolio] returns the record stored under the resolved key, or a
    [KeyError] naming the resolved key (not the one supplied). *)
Theorem get_portfolio_end_to_end
    (w : World) (access_key : option str) (source text : str)
    (d : gmap str pyval) :
  serves codec w source text ->
  json_loads codec text = Some (PDict d) ->
  outcome (get_portfolio codec w access_key (Some source))
  = match d !! lookup_key w access_key with
    | Some v => Ok v
    | None => Raise (KeyError (key_error_prefix ++ lookup_key w access_key))
    end.
Proof.
  intros Hserves Hparse.
  pose proof (load_json_serves codec w source text Hserves) as Hload.
  rewrite Hparse in Hload.
  unfold get_portfolio. cbn [from_option id].
  rewrite (lookup_in_dict codec w _ source _ d Hload). reflexivity.
Qed.

(** Resolving the access key is idempotent: passing the resolved key back as
    the access key gives the same call. *)
Theorem resolved_key_is_stable
    (w : World) (access_key source : option str) :
  lookup_key w (Some (lookup_key w access_key)) = lookup_key w access_key /\
  get_portfolio codec w (Some (lookup_key w access_key)) source
  = get_portfolio codec w access_key source.
Proof.
  assert (H : lookup_key w (Some (lookup_key w access_key))
              = lookup_key w access_key).
  { unfold lookup_key at 1. destruct (lookup_key w access_key) as [|c k] eqn:E.
    - cbn [py_not]. unfold lookup_key in E.
      destruct (py_not access_key) eqn:Hn; [exact E|].
      destruct access_key as [[|c k]|]; discriminate.
    - reflexivity. }
  split; [exact H|]. unfold get_portfolio. rewrite H. reflexivity.
Qed.

(** Without a source argument, [get_portfolio] issues one GET of the fixed
    URL with the 20 second timeout and [get_portfolio_by_key] opens the local
    file [aa.json], in every world and for every access key. *)
Theorem default_sources (w : World) (key : str) (access_key : option str) :
  trace (get_portfolio codec w access_key None)
  = [HttpGet (u "https://jsonbin.io/689589fcf7e7a370d1f70914") 20%Z] /\
  trace (get_portfolio_by_key codec w key None) = [OpenRead (u "aa.json")].
Proof.
  change (get_portfolio codec w access_key None)
    with (get_portfolio_by_key codec w (lookup_key w access_key)
            (Some default_source)).
  change (get_portfolio_by_key codec w key None)
    with (get_portfolio_by_key codec w key (Some default_source_by_key)).
  rewrite (lookup_after_load w _ default_source _ _ (load_pair w _)).
  rewrite (lookup_after_load w _ default_source_by_key _ _ (load_pair w _)).
  unfold trace at 1 3. cbn [fst].
  rewrite load_json_url by (vm_compute; reflexivity).
  rewrite load_json_file by (vm_compute; reflexivity).
  split; reflexivity.
Qed.

(** The result of [get_portfolio] depends on the world only through the one
    resource it retrieves (the response to the GET with timeout 20 for a URL,
    the file for a path) and, when no non-empty access key is supplied,
    through [DEFAULT_ACCESS_KEY]. *)
Theorem get_portfolio_frame
    (w1 w2 : World) (access_key : option str) (source : str) :
  (py_not access_key = true ->
   environ w1 !! u "DEFAULT_ACCESS_KEY" = environ w2 !! u "DEFAULT_ACCESS_KEY") ->
  (is_url source = true -> network w1 source 20%Z = network w2 source 20%Z) ->
  (is_url source = false -> files w1 source = files w2 source) ->
  get_portfolio codec w1 access_key (Some source)
  = get_portfolio codec w2 access_key (Some source).
Proof.
  intros Henv Hnet Hfile.
  assert (Hkey : lookup_key w1 access_key = lookup_key w2 access_key).
  { unfold lookup_key, getenv.
    change default_access_key_var with (u "DEFAULT_ACCESS_KEY").
    destruct (py_not access_key); [|reflexivity].
    rewrite Henv by reflexivity. reflexivity. }
  assert (Hload : _load_json codec w1 source = _load_json codec w2 source).
  { destruct (is_url source) eqn:Hurl.
    - rewrite !load_json_url by exact Hurl. change http_timeout with 20%Z.
      rewrite Hnet by reflexivity. reflexivity.
    - rewrite !load_json_file by exact Hurl.
      rewrite Hfile by reflexivity. reflexivity. }
  unfold get_portfolio. cbn [from_option id]. rewrite Hkey.
  rewrite (lookup_after_load w1 _ source _ _ (load_pair w1 source)).
  rewrite (lookup_after_load w2 _ source _ _ (load_pair w2 source)).
  rewrite Hload. reflexivity.
Qed.

End WithCodec.

(** *** The properties on the example environment *)


Lemma load_failure_passes_through_witness :
  get_portfolio_by_key Sample.codec Sample.world (u "u1")
    (Some (u "nowhere.json"))
  = _load_json Sample.codec Sample.world (u "nowhere.json") /\
  get_portfolio Sample.codec Sample.world None (Some (u "nowhere.json"))
  = _load_json Sample.codec Sample.world (u "nowhere.json").
Proof.
  apply (load_failure_passes_through Sample.codec Sample.world (u "u1") None
           (u "nowhere.json") FileNotFoundError).
  vm_compute. reflexivity.
Defined.

Lemma lookup_in_non_dict_witness :
  outcome (get_portfolio_by_key Sample.codec Sample.world (u "u1")
             (Some (u "array.json")))
  = Raise TypeError /\
  outcome (get_portfolio_by_key Sample.codec Sample.world (u "u2")
             (Some (u "array.json")))
  = Raise (KeyError (key_error_prefix ++ u "u2")).
Proof.
  assert (Hload : outcome (_load_json Sample.codec Sample.world (u "array.json"))
                  = Ok (PList [PStr (u "u1")])) by (vm_compute; reflexivity).
  split.
  - destruct (lookup_in_non_dict Sample.codec Sample.world (u "u1")
                (u "array.json") _ Hload) as (Hlist & _).
    destruct (Hlist [PStr (u "u1")] eq_refl) as (Hin & _).
    apply Hin. left. reflexivity.
  - destruct (lookup_in_non_dict Sample.codec Sample.world (u "u2")
                (u "array.json") _ Hload) as (Hlist & _).
    destruct (Hlist [PStr (u "u1")] eq_refl) as (_ & Hout).
    apply Hout. intros [H | []]. vm_compute in H. discriminate.
Defined.

Lemma key_error_cause_witness :
  u "존재하지 않는 access_key: missing" = key_error_prefix ++ u "missing" /\
  exists data,
    outcome (_load_json Sample.codec Sample.world (u "aa.json")) = Ok data /\
    py_in (u "missing") data = Ok false.
Proof.
  apply (key_error_cause Sample.codec Sample.world (u "missing") (u "aa.json")).
  vm_compute. reflexivity.
Defined.

Lemma get_portfolio_end_to_end_witness :
  outcome (get_portfolio Sample.codec Sample.world None
             (Some (u "https://example.test/users")))
  = match Sample.val_users !! lookup_key Sample.world None with
    | Some v => Ok v
    | None => Raise (KeyError (key_error_prefix ++ lookup_key Sample.world None))
    end.
Proof.
  apply (get_portfolio_end_to_end Sample.codec Sample.world None
           (u "https://example.test/users")
           (default [] (Sample.text_of Sample.doc_users))).
  - left. split; [vm_compute; reflexivity|].
    exists {| status_code := 200; content := Sample.doc_users |}.
    repeat split; vm_compute; reflexivity.
  - vm_compute. reflexivity.
Defined.

Lemma get_portfolio_frame_witness :
  get_portfolio Sample.codec Sample.world None (Some (u "aa.json"))
  = get_portfolio Sample.codec
      {| environ := <[ u "HOME" := u "/root" ]> ∅;
         files := fun path => if str_eqb path (u "aa.json")
                              then Contents Sample.doc_users
                              else Unreadable;
         network := fun _ _ => NoResponse |}
      None (Some (u "aa.json")).
Proof.
  apply (get_portfolio_frame Sample.codec).
  - intros _. vm_compute. reflexivity.
  - intros H. vm_compute in H. discriminate.
  - intros _. vm_compute. reflexivity.
Defined.

End LookupBehaviour.
